(** * Bafang display emulator: a shallow embedding of [bafang.ino]

    The firmware polls three push buttons, keeps a pedal-assist (PAS)
    level in an 8-bit counter, shows the level on an RGB LED and pushes
    the level, the backlight setting and the wheel diameter to the motor
    controller as three checksum-framed packets.

    The embedding follows the sketch function by function.  Globals and
    the hardware live in one [Machine] record that is threaded through a
    small state monad; everything the sketch does to the outside world
    ([pinMode], [analogWrite], [Serial.write], [delay]) is appended to a
    trace.
    Bytes and the 8-bit counter are [Z] with the wrap-around written
    out. *)

From Stdlib Require Import ZArith List Bool Lia.
Import ListNotations.
Local Open Scope Z_scope.

(** ** Fixed-width integers *)

Definition u8 (z : Z) : Z := z mod 2 ^ 8.
Definition u16 (z : Z) : Z := z mod 2 ^ 16.

(** ** Enumerations of the wire protocol *)

Inductive BAFCommand : Set := READ | WRITE.

Definition BAFCommand_val (c : BAFCommand) : Z :=
  match c with
  | READ => 0x11
  | WRITE => 0x16
  end.

Inductive BAFPasCommand : Set :=
  | PAS_WALK | PAS0 | PAS1 | PAS2 | PAS3 | PAS4
  | PAS5 | PAS6 | PAS7 | PAS8 | PAS9.

Definition BAFPasCommand_val (c : BAFPasCommand) : Z :=
  match c with
  | PAS_WALK => 0x06
  | PAS0 => 0x00
  | PAS1 => 0x01
  | PAS2 => 0x0B
  | PAS3 => 0x0C
  | PAS4 => 0x0D
  | PAS5 => 0x02
  | PAS6 => 0x15
  | PAS7 => 0x16
  | PAS8 => 0x17
  | PAS9 => 0x03
  end.

Inductive BAFBacklightCommand : Set := OFF | ON.

Definition BAFBacklightCommand_val (c : BAFBacklightCommand) : Z :=
  match c with
  | OFF => 0xF0
  | ON => 0xF1
  end.

(** The enumerators of [ButtonStates] index the two button arrays;
    [BTN_STATE_COUNT] is their number. *)
Inductive ButtonStates : Set := BTN_UP | BTN_DOWN | BTN_PWR.

Definition ButtonStates_val (i : ButtonStates) : Z :=
  match i with
  | BTN_UP => 0
  | BTN_DOWN => 1
  | BTN_PWR => 2
  end.

Definition BTN_STATE_COUNT : Z := 3.

(** The values the index [i] of [for (int i=0; i < BTN_STATE_COUNT; i++)]
    takes, in order. *)
Definition button_indices : list ButtonStates := [BTN_UP; BTN_DOWN; BTN_PWR].

Definition ButtonStates_eqb (i j : ButtonStates) : bool :=
  ButtonStates_val i =? ButtonStates_val j.

(** ** Colours and pins *)

Record Color : Set := mkColor { r : Z; g : Z; b : Z }.

Definition RED : Color := mkColor 255 0 0.
Definition GREEN : Color := mkColor 0 255 0.
Definition BLUE : Color := mkColor 0 0 255.
Definition YELLOW : Color := mkColor 255 255 0.
Definition MAGENTA : Color := mkColor 255 0 255.
Definition CYAN : Color := mkColor 0 255 255.

Definition PIN_RED : Z := 5.
Definition PIN_GREEN : Z := 6.
Definition PIN_BLUE : Z := 9.
Definition PIN_BTN_PWR : Z := 2.
Definition PIN_BTN_UP : Z := 3.
Definition PIN_BTN_DOWN : Z := 4.

Definition MAX_PAS_LEVEL : Z := 4.

Definition PAS2Color : list Color := [RED; GREEN; BLUE; MAGENTA].

(** Line levels of the Arduino core ([Arduino.h]): [HIGH] is 1, [LOW] is 0. *)
Definition HIGH : Z := 1.
Definition LOW : Z := 0.

(** ** Packets and their byte image

    [Serializable<T>] is a union of a packed struct and a byte array of
    the same size.  Its [bytes] view is modelled by a class whose
    instances lay the fields out in declaration order without padding; the
    16-bit diameter is stored low byte first, as on the little-endian
    AVR and ARM targets of the sketch. *)

Class Serializable (T : Type) : Type := { bytes : T -> list Z }.

Definition sizeof {T} `{Serializable T} (x : T) : nat := length (bytes x).

Record baf_pas_pkg_t : Set := mk_pas_pkg {
  pas_type : BAFCommand;
  pas_cmd : Z;
  pas_pas : BAFPasCommand;
  pas_checksum : Z
}.

Definition baf_pas_pkg : baf_pas_pkg_t :=
  {| pas_type := WRITE; pas_cmd := 0x08; pas_pas := PAS0; pas_checksum := 0 |}.

#[export] Instance Serializable_pas : Serializable baf_pas_pkg_t :=
  {| bytes p :=
       [BAFCommand_val (pas_type p); pas_cmd p;
        BAFPasCommand_val (pas_pas p); pas_checksum p] |}.

Record baf_light_pkg_t : Set := mk_light_pkg {
  light_type : BAFCommand;
  light_cmd : Z;
  light_backlight : BAFBacklightCommand;
  light_checksum : Z
}.

Definition baf_light_pkg : baf_light_pkg_t :=
  {| light_type := WRITE; light_cmd := 0x1A;
     light_backlight := OFF; light_checksum := 0 |}.

#[export] Instance Serializable_light : Serializable baf_light_pkg_t :=
  {| bytes p :=
       [BAFCommand_val (light_type p); light_cmd p;
        BAFBacklightCommand_val (light_backlight p); light_checksum p] |}.

Record baf_wheel_pkg_t : Set := mk_wheel_pkg {
  wheel_type : BAFCommand;
  wheel_cmd : Z;
  wheel_diameter : Z;
  wheel_checksum : Z
}.

Definition baf_wheel_pkg : baf_wheel_pkg_t :=
  {| wheel_type := WRITE; wheel_cmd := 0x1F;
     wheel_diameter := 0; wheel_checksum := 0 |}.

#[export] Instance Serializable_wheel : Serializable baf_wheel_pkg_t :=
  {| bytes p :=
       [BAFCommand_val (wheel_type p); wheel_cmd p;
        Z.land (wheel_diameter p) 0xFF; Z.shiftr (wheel_diameter p) 8;
        wheel_checksum p] |}.

(** ** Machine state and effects *)

Inductive PinMode : Set := OUTPUT | INPUT_PULLUP.

Inductive Event : Set :=
  | SetPinMode (pin : Z) (mode : PinMode)
  | SerialBegin (baud : Z)
  | AnalogWrite (pin value : Z)
  | SerialWrite (buf : list Z)
  | Delay (ms : Z).

(** The four globals of the sketch, the PWM duty of every output pin and
    the chronological trace of what the sketch did to the outside
    world. *)
Record Machine : Type := mkMachine {
  buttonState : ButtonStates -> Z;
  lastButtonState : ButtonStates -> Z;
  current_pas_level : Z;
  dirty : bool;
  pwm : Z -> Z;
  trace : list Event
}.

(** What [digitalRead] finds on each pin during one pass of [loop]:
    [true] for a high line. *)
Definition Pins : Type := Z -> bool.

Definition M (A : Type) : Type := Machine -> A * Machine.

Definition ret {A} (a : A) : M A := fun m => (a, m).
Definition bind {A B} (c : M A) (k : A -> M B) : M B :=
  fun m => let (a, m') := c m in k a m'.
Definition exec {A} (c : M A) (m : Machine) : Machine := snd (c m).

Declare Scope prog_scope.
Delimit Scope prog_scope with prog.
Notation "x <- c ;; k" := (bind c (fun x => k))
  (at level 61, c at next level, right associativity) : prog_scope.
Notation "c ;; k" := (bind c (fun _ => k))
  (at level 61, right associativity) : prog_scope.
Local Open Scope prog_scope.

Definition get {A} (f : Machine -> A) : M A := fun m => (f m, m).
Definition modify (f : Machine -> Machine) : M unit := fun m => (tt, f m).
Definition when (c : bool) (k : M unit) : M unit := if c then k else ret tt.

Definition emit (e : Event) (m : Machine) : Machine :=
  mkMachine (buttonState m) (lastButtonState m) (current_pas_level m)
    (dirty m) (pwm m) (trace m ++ [e]).

Definition upd {K} (eqb : K -> K -> bool) (a : K -> Z) (i : K) (v : Z) : K -> Z :=
  fun j => if eqb j i then v else a j.

Definition set_buttonState (i : ButtonStates) (v : Z) (m : Machine) : Machine :=
  mkMachine (upd ButtonStates_eqb (buttonState m) i (u8 v)) (lastButtonState m)
    (current_pas_level m) (dirty m) (pwm m) (trace m).

Definition set_lastButtonState (i : ButtonStates) (v : Z) (m : Machine) : Machine :=
  mkMachine (buttonState m) (upd ButtonStates_eqb (lastButtonState m) i (u8 v))
    (current_pas_level m) (dirty m) (pwm m) (trace m).

Definition set_current_pas_level (v : Z) (m : Machine) : Machine :=
  mkMachine (buttonState m) (lastButtonState m) (u8 v) (dirty m) (pwm m) (trace m).

Definition set_dirty (v : bool) (m : Machine) : Machine :=
  mkMachine (buttonState m) (lastButtonState m) (current_pas_level m) v
    (pwm m) (trace m).

Definition set_pwm (pin value : Z) (m : Machine) : Machine :=
  mkMachine (buttonState m) (lastButtonState m) (current_pas_level m)
    (dirty m) (upd Z.eqb (pwm m) pin value) (trace m).

(** *** The Arduino calls the sketch makes *)

Definition analogWrite (pin value : Z) : M unit :=
  modify (fun m => emit (AnalogWrite pin value) (set_pwm pin value m)).

Definition Serial_write (buf : list Z) (n : nat) : M unit :=
  modify (emit (SerialWrite (firstn n buf))).

Definition delay (ms : Z) : M unit := modify (emit (Delay ms)).

Definition pinMode (pin : Z) (mode : PinMode) : M unit :=
  modify (emit (SetPinMode pin mode)).

Definition Serial_begin (baud : Z) : M unit := modify (emit (SerialBegin baud)).

Definition digitalRead (pins : Pins) (pin : Z) : M Z :=
  ret (if pins pin then HIGH else LOW).

(** ** The sketch *)

Definition setColor (c : Color) : M unit :=
  analogWrite PIN_RED (r c) ;;
  analogWrite PIN_GREEN (g c) ;;
  analogWrite PIN_BLUE (b c).

(** The table lookup is guarded by the comparison with [MAX_PAS_LEVEL],
    so the [None] branch is never taken for a counter value. *)
Definition updatePAS : M unit :=
  lvl <- get current_pas_level ;;
  when (lvl <? MAX_PAS_LEVEL)
    (match nth_error PAS2Color (Z.to_nat lvl) with
     | Some color => setColor color
     | None => ret tt
     end).

Definition sendNewState : M unit :=
  (* Write current PAS level *)
  lvl <- get current_pas_level ;;
  let pas := baf_pas_pkg in
  let pasLevel :=
    match lvl with
    | 0 => PAS0
    | 1 => PAS1
    | 2 => PAS2
    | 3 => PAS3
    | 4 => PAS4
    | _ => PAS0
    end in
  let pas :=
    mk_pas_pkg (pas_type pas) (pas_cmd pas) pasLevel (pas_checksum pas) in
  let pas :=
    mk_pas_pkg (pas_type pas) (pas_cmd pas) (pas_pas pas)
      (u8 (BAFCommand_val (pas_type pas) + pas_cmd pas
           + BAFPasCommand_val (pas_pas pas))) in
  Serial_write (bytes pas) (sizeof pas) ;;
  delay 1 ;;
  let light := baf_light_pkg in
  Serial_write (bytes light) (sizeof light) ;;
  delay 1 ;;
  let wheel := baf_wheel_pkg in
  let wheel :=
    mk_wheel_pkg (wheel_type wheel) (wheel_cmd wheel) (wheel_diameter wheel)
      (u8 (BAFCommand_val (wheel_type wheel) + wheel_cmd wheel
           + wheel_diameter wheel)) in
  let wheel :=
    mk_wheel_pkg (wheel_type wheel) (wheel_cmd wheel) (u16 0x90C6)
      (wheel_checksum wheel) in
  Serial_write (bytes wheel) (sizeof wheel) ;;
  delay 1.

(** [setup] touches no global: it configures the pins and the serial
    port and waits. *)
Definition setup : M unit :=
  (* Configure leds *)
  pinMode PIN_RED OUTPUT ;;
  pinMode PIN_GREEN OUTPUT ;;
  pinMode PIN_BLUE OUTPUT ;;
  (* Configure buttons *)
  pinMode PIN_BTN_UP INPUT_PULLUP ;;
  pinMode PIN_BTN_DOWN INPUT_PULLUP ;;
  pinMode PIN_BTN_PWR INPUT_PULLUP ;;
  Serial_begin 1200 ;;
  delay 100.

(** One pass of the body of the [for] loop, for index [i]. *)
Definition loop_body (i : ButtonStates) : M unit :=
  cur <- get (fun m => buttonState m i) ;;
  last <- get (fun m => lastButtonState m i) ;;
  (* State changed? *)
  when (negb (cur =? last))
    ((if cur =? HIGH then
        match i with
        | BTN_UP =>
            lvl <- get current_pas_level ;;
            modify (set_current_pas_level (lvl + 1))
        | BTN_DOWN =>
            lvl <- get current_pas_level ;;
            modify (set_current_pas_level (lvl - 1))
        | BTN_PWR => ret tt
        end ;;
        modify (set_dirty true)
      else ret tt) ;;
     (* Delay a bit to avoid bouncing *)
     delay 50) ;;
  (* Save new state *)
  cur <- get (fun m => buttonState m i) ;;
  modify (set_lastButtonState i cur).

Fixpoint for_each {A} (l : list A) (body : A -> M unit) : M unit :=
  match l with
  | [] => ret tt
  | x :: l' => body x ;; for_each l' body
  end.

(** Reading the three lines, the first statements of [loop]. *)
Definition read_buttons (pins : Pins) : M unit :=
  v <- digitalRead pins PIN_BTN_UP ;;
  modify (set_buttonState BTN_UP v) ;;
  v <- digitalRead pins PIN_BTN_DOWN ;;
  modify (set_buttonState BTN_DOWN v) ;;
  v <- digitalRead pins PIN_BTN_PWR ;;
  modify (set_buttonState BTN_PWR v).

(** [loop] up to the end of its [for] statement. *)
Definition scan_buttons (pins : Pins) : M unit :=
  read_buttons pins ;;
  for_each button_indices loop_body.

(** The [if (dirty)] statement that ends [loop]. *)
Definition flush : M unit :=
  d <- get dirty ;;
  when d
    (* Something did change. Update LED and controller *)
    (updatePAS ;;
     sendNewState ;;
     modify (set_dirty false)).

Definition loop (pins : Pins) : M unit :=
  scan_buttons pins ;;
  flush.

(** The globals as their initialisers leave them, with a dark LED and
    nothing sent yet. *)
Definition power_on : Machine :=
  {| buttonState := fun _ => 0;
     lastButtonState := fun _ => 0;
     current_pas_level := 1;
     dirty := false;
     pwm := fun _ => 0;
     trace := [] |}.

Definition boot : Machine := exec setup power_on.

(** ** Observations on a run *)

(** The events a computation added to the trace of [m]. *)
Definition events_of {A} (c : M A) (m : Machine) : list Event :=
  skipn (length (trace m)) (trace (exec c m)).

Fixpoint serial_out (tr : list Event) : list (list Z) :=
  match tr with
  | [] => []
  | SerialWrite buf :: tr' => buf :: serial_out tr'
  | _ :: tr' => serial_out tr'
  end.

Fixpoint led_writes (tr : list Event) : list (Z * Z) :=
  match tr with
  | [] => []
  | AnalogWrite pin v :: tr' => (pin, v) :: led_writes tr'
  | _ :: tr' => led_writes tr'
  end.

(** The packets one computation hands to the serial port. *)
Definition transmitted {A} (c : M A) (m : Machine) : list (list Z) :=
  serial_out (events_of c m).

Definition sum_bytes (l : list Z) : Z := fold_right Z.add 0 l.

(** The framing rule of the protocol: the last byte is the 8-bit sum of
    the bytes before it. *)
Definition checksum_ok (pkt : list Z) : bool :=
  last pkt (-1) =? u8 (sum_bytes (removelast pkt)).

(** Channel [i] has an edge in [m] when its sampled level differs from
    the remembered one; the edge is a release when the new level is
    [HIGH]. *)
Definition changed (i : ButtonStates) (m : Machine) : bool :=
  negb (buttonState m i =? lastButtonState m i).

Definition released (i : ButtonStates) (m : Machine) : bool :=
  changed i m && (buttonState m i =? HIGH).

Definition pin_of (i : ButtonStates) : Z :=
  match i with
  | BTN_UP => PIN_BTN_UP
  | BTN_DOWN => PIN_BTN_DOWN
  | BTN_PWR => PIN_BTN_PWR
  end.

Definition level_of (x : bool) : Z := if x then HIGH else LOW.

(** The same two notions for a whole pass of [loop], read off the pins. *)
Definition edge (pins : Pins) (i : ButtonStates) (m : Machine) : bool :=
  negb (level_of (pins (pin_of i)) =? lastButtonState m i).

Definition release_edge (pins : Pins) (i : ButtonStates) (m : Machine) : bool :=
  edge pins i m && pins (pin_of i).

(** ** Closed forms

    The machine each function of the sketch returns, written out field
    by field.  They are not part of the sketch: each is proved equal to
    the embedded function ([setColor_eq], [sendNewState_eq],
    [loop_body_eq], ...) before it is used. *)

Definition after_setColor (c : Color) (m : Machine) : Machine :=
  mkMachine (buttonState m) (lastButtonState m) (current_pas_level m) (dirty m)
    (upd Z.eqb (upd Z.eqb (upd Z.eqb (pwm m) PIN_RED (r c)) PIN_GREEN (g c))
       PIN_BLUE (b c))
    (trace m ++ [AnalogWrite PIN_RED (r c); AnalogWrite PIN_GREEN (g c);
                 AnalogWrite PIN_BLUE (b c)]).

(** The byte the [switch] of [sendNewState] selects for a counter value. *)
Definition pas_byte (lvl : Z) : Z :=
  BAFPasCommand_val
    match lvl with
    | 0 => PAS0
    | 1 => PAS1
    | 2 => PAS2
    | 3 => PAS3
    | 4 => PAS4
    | _ => PAS0
    end.

Definition pas_packet (lvl : Z) : list Z :=
  [0x16; 0x08; pas_byte lvl; u8 (0x16 + 0x08 + pas_byte lvl)].

Definition light_packet : list Z := [0x16; 0x1A; 0xF0; 0x00].

Definition wheel_packet : list Z := [0x16; 0x1F; 0xC6; 0x90; 0x35].

Definition sent_events (lvl : Z) : list Event :=
  [SerialWrite (pas_packet lvl); Delay 1;
   SerialWrite light_packet; Delay 1;
   SerialWrite wheel_packet; Delay 1].

Definition after_send (m : Machine) : Machine :=
  mkMachine (buttonState m) (lastButtonState m) (current_pas_level m) (dirty m)
    (pwm m) (trace m ++ sent_events (current_pas_level m)).

Definition after_body (i : ButtonStates) (m : Machine) : Machine :=
  mkMachine (buttonState m)
    (upd ButtonStates_eqb (lastButtonState m) i (u8 (buttonState m i)))
    (if released i m then
       match i with
       | BTN_UP => u8 (current_pas_level m + 1)
       | BTN_DOWN => u8 (current_pas_level m - 1)
       | BTN_PWR => current_pas_level m
       end
     else current_pas_level m)
    (released i m || dirty m)
    (pwm m)
    (trace m ++ if changed i m then [Delay 50] else []).

Definition after_read (pins : Pins) (m : Machine) : Machine :=
  set_buttonState BTN_PWR (level_of (pins PIN_BTN_PWR))
    (set_buttonState BTN_DOWN (level_of (pins PIN_BTN_DOWN))
       (set_buttonState BTN_UP (level_of (pins PIN_BTN_UP)) m)).

Definition after_scan (pins : Pins) (m : Machine) : Machine :=
  after_body BTN_PWR (after_body BTN_DOWN (after_body BTN_UP (after_read pins m))).

(** The counter after the [for] statement. *)
Definition scanned_level (pins : Pins) (m : Machine) : Z :=
  let l := current_pas_level m in
  match release_edge pins BTN_UP m, release_edge pins BTN_DOWN m with
  | true, true => u8 (u8 (l + 1) - 1)
  | true, false => u8 (l + 1)
  | false, true => u8 (l - 1)
  | false, false => l
  end.

Definition bounce_delay (x : bool) : list Event := if x then [Delay 50] else [].

Definition after_update (m : Machine) : Machine :=
  if current_pas_level m <? MAX_PAS_LEVEL then
    match nth_error PAS2Color (Z.to_nat (current_pas_level m)) with
    | Some color => after_setColor color m
    | None => m
    end
  else m.

Definition after_flush (m : Machine) : Machine :=
  if dirty m then set_dirty false (after_send (after_update m)) else m.

(** The LED writes [updatePAS] makes for a counter value. *)
Definition led_events (lvl : Z) : list Event :=
  if lvl <? MAX_PAS_LEVEL then
    match nth_error PAS2Color (Z.to_nat lvl) with
    | Some c =>
        [AnalogWrite PIN_RED (r c); AnalogWrite PIN_GREEN (g c);
         AnalogWrite PIN_BLUE (b c)]
    | None => []
    end
  else [].

(** Whether the [for] statement of this pass leaves [dirty] set. *)
Definition scanned_dirty (pins : Pins) (m : Machine) : bool :=
  release_edge pins BTN_PWR m || (release_edge pins BTN_DOWN m
    || (release_edge pins BTN_UP m || dirty m)).

(** ** The wire format as the specification words it *)

(** The sub-command table of the specification: 0, 1, 2, 3, 4 map to
    0x00, 0x01, 0x0B, 0x0C, 0x0D and every other value to 0x00. *)
Definition spec_pas_subcommand (level : Z) : Z :=
  if level =? 0 then 0x00
  else if level =? 1 then 0x01
  else if level =? 2 then 0x0B
  else if level =? 3 then 0x0C
  else if level =? 4 then 0x0D
  else 0x00.

(** ** Inputs and states used as examples *)

Definition only_up : Pins := fun pin => pin =? PIN_BTN_UP.
Definition only_down : Pins := fun pin => pin =? PIN_BTN_DOWN.
Definition all_high : Pins := fun _ => true.
Definition all_low : Pins := fun _ => false.
Definition pwr_held : Pins := fun pin => negb (pin =? PIN_BTN_PWR).

Definition with_level (lvl : Z) (m : Machine) : Machine :=
  mkMachine (buttonState m) (lastButtonState m) lvl (dirty m) (pwm m) (trace m).

Definition UINT8_MAX : Z := 2 ^ 8 - 1.

Definition led_color (m : Machine) : Color :=
  mkColor (pwm m PIN_RED) (pwm m PIN_GREEN) (pwm m PIN_BLUE).

(** The state reached from boot by a pass with the power button held
    down and the other two lines idle. *)
Definition power_held : Machine := exec (loop pwr_held) boot.

(** The state reached from boot by a pass with no button touched. *)
Definition idle : Machine := exec (loop all_high) boot.

(** ** The rest of the data model *)

(** The two-byte read packet of the wire format; the sketch declares it
    and never builds one. *)
Record baf_read_byte_pkg_t : Set := mk_read_byte_pkg {
  read_type : Z;
  read_unknown : Z
}.

#[export] Instance Serializable_read_byte : Serializable baf_read_byte_pkg_t :=
  {| bytes p := [read_type p; read_unknown p] |}.

(** ** Runs

    The Arduino core calls [setup] once and then [loop] for ever.  A run
    is a finite number of passes of [loop], each with its own reading of
    the pins. *)
Definition run (inputs : list Pins) : M unit := for_each inputs loop.

Definition click (x : bool) : Z := if x then 1 else 0.

(** How often the line on [pin] goes from low to high over the readings
    [inputs], when it was high ([was_high]) or low before the first. *)
Fixpoint rises (pin : Z) (was_high : bool) (inputs : list Pins) : Z :=
  match inputs with
  | [] => 0
  | pins :: rest =>
      click (pins pin && negb was_high) + rises pin (pins pin) rest
  end.

(** Some line goes from low to high between the levels [was_high] and
    the reading [pins]. *)
Definition any_rise (was_high : ButtonStates -> bool) (pins : Pins) : bool :=
  existsb (fun i => pins (pin_of i) && negb (was_high i)) button_indices.

(** The number of readings of [inputs] in which some line goes from low
    to high. *)
Fixpoint rising_passes (was_high : ButtonStates -> bool) (inputs : list Pins)
  : nat :=
  match inputs with
  | [] => 0
  | pins :: rest =>
      (if any_rise was_high pins then 1 else 0)
      + rising_passes (fun i => pins (pin_of i)) rest
  end.

(** The levels remembered in [lastButtonState], as booleans. *)
Definition remembered_high (m : Machine) (i : ButtonStates) : bool :=
  lastButtonState m i =? HIGH.

(** The events of a run, pass by pass. *)
Fixpoint run_events (inputs : list Pins) (m : Machine) : list Event :=
  match inputs with
  | [] => []
  | pins :: rest =>
      events_of (loop pins) m ++ run_events rest (exec (loop pins) m)
  end.

(** The three packets of one transmission at level [lvl]. *)
Definition packet_triple (lvl : Z) : list (list Z) :=
  [pas_packet lvl; light_packet; wheel_packet].

(** The time a trace spends in [delay], in milliseconds. *)
Fixpoint busy_ms (tr : list Event) : Z :=
  match tr with
  | [] => 0
  | Delay ms :: tr' => ms + busy_ms tr'
  | _ :: tr' => busy_ms tr'
  end.

Definition is_byte (z : Z) : Prop := 0 <= z < 256.

(** The globals a pass of [loop] is meant to leave behind: the counter
    fits its eight bits, nothing is pending, and both button arrays hold
    the same line levels. *)
Definition settled (m : Machine) : Prop :=
  0 <= current_pas_level m < 256
  /\ dirty m = false
  /\ forall i : ButtonStates,
       lastButtonState m i = buttonState m i
       /\ (buttonState m i = LOW \/ buttonState m i = HIGH).

(** The PWM duties [updatePAS] leaves behind at counter value [lvl],
    starting from the duties [pw]. *)
Definition led_pwm (lvl : Z) (pw : Z -> Z) : Z -> Z :=
  if lvl <? MAX_PAS_LEVEL then
    match nth_error PAS2Color (Z.to_nat lvl) with
    | Some c =>
        upd Z.eqb (upd Z.eqb (upd Z.eqb pw PIN_RED (r c)) PIN_GREEN (g c))
          PIN_BLUE (b c)
    | None => pw
    end
  else pw.

(** * Properties *)

Ltac split_all := repeat match goal with |- _ /\ _ => split end.

(** ** Arithmetic on the 8-bit counter *)

Lemma u8_range (z : Z) : 0 <= u8 z < 256.
Proof. unfold u8. change (2 ^ 8) with 256. apply Z.mod_pos_bound. lia. Qed.

Lemma u8_small (z : Z) : 0 <= z < 256 -> u8 z = z.
Proof. intros Hz. unfold u8. change (2 ^ 8) with 256. apply Z.mod_small, Hz. Qed.

Lemma u8_level_of (x : bool) : u8 (level_of x) = level_of x.
Proof. destruct x; reflexivity. Qed.

Lemma level_of_HIGH (x : bool) : (level_of x =? HIGH) = x.
Proof. destruct x; reflexivity. Qed.

Lemma u8_succ_pred (z : Z) : u8 (u8 (z + 1) - 1) = u8 z.
Proof.
  unfold u8. change (2 ^ 8) with 256.
  rewrite Zminus_mod_idemp_l. f_equal. lia.
Qed.

(** ** Traces only grow *)

Lemma skipn_length_app {A} (l x : list A) : skipn (length l) (l ++ x) = x.
Proof. induction l as [|a l IH]; [reflexivity | exact IH]. Qed.

Lemma events_of_app {A} (c : M A) (m : Machine) (evs : list Event) :
  trace (exec c m) = trace m ++ evs -> events_of c m = evs.
Proof. intros H. unfold events_of. rewrite H. apply skipn_length_app. Qed.

(** ** What each function of the sketch does to the machine *)

Lemma setColor_eq (c : Color) (m : Machine) :
  setColor c m = (tt, after_setColor c m).
Proof.
  unfold setColor, after_setColor, analogWrite, modify, bind, emit, set_pwm.
  cbn. rewrite <- !app_assoc. reflexivity.
Qed.

Lemma sendNewState_eq (m : Machine) : sendNewState m = (tt, after_send m).
Proof.
  unfold sendNewState, after_send, sent_events, Serial_write, delay, modify,
    bind, get, emit.
  cbn. rewrite <- !app_assoc. reflexivity.
Qed.

Lemma loop_body_eq (i : ButtonStates) (m : Machine) :
  loop_body i m = (tt, after_body i m).
Proof.
  unfold loop_body, after_body, released, changed, when, bind, get, modify, ret.
  destruct (negb (buttonState m i =? lastButtonState m i));
    destruct (buttonState m i =? HIGH); destruct i; cbn;
    rewrite ?app_nil_r; reflexivity.
Qed.

Lemma read_buttons_eq (pins : Pins) (m : Machine) :
  read_buttons pins m = (tt, after_read pins m).
Proof. reflexivity. Qed.

Lemma scan_buttons_eq (pins : Pins) (m : Machine) :
  scan_buttons pins m = (tt, after_scan pins m).
Proof.
  unfold scan_buttons, bind. rewrite read_buttons_eq.
  unfold button_indices, for_each, bind. rewrite !loop_body_eq. reflexivity.
Qed.

Lemma after_read_buttonState (pins : Pins) (m : Machine) (i : ButtonStates) :
  buttonState (after_read pins m) i = level_of (pins (pin_of i)).
Proof. destruct i; cbn; apply u8_level_of. Qed.

(** The reading of a channel is compared with the level remembered at the
    start of the pass: earlier passes of the [for] body only touch their
    own entry of [lastButtonState]. *)
Lemma released_scan_UP (pins : Pins) (m : Machine) :
  released BTN_UP (after_read pins m) = release_edge pins BTN_UP m.
Proof.
  unfold released, changed, release_edge, edge.
  rewrite after_read_buttonState, level_of_HIGH. reflexivity.
Qed.

Lemma released_scan_DOWN (pins : Pins) (m : Machine) :
  released BTN_DOWN (after_body BTN_UP (after_read pins m))
  = release_edge pins BTN_DOWN m.
Proof.
  unfold released, changed, release_edge, edge.
  change (buttonState (after_body BTN_UP (after_read pins m)) BTN_DOWN)
    with (buttonState (after_read pins m) BTN_DOWN).
  rewrite after_read_buttonState, level_of_HIGH. reflexivity.
Qed.

Lemma released_scan_PWR (pins : Pins) (m : Machine) :
  released BTN_PWR (after_body BTN_DOWN (after_body BTN_UP (after_read pins m)))
  = release_edge pins BTN_PWR m.
Proof.
  unfold released, changed, release_edge, edge.
  change (buttonState (after_body BTN_DOWN (after_body BTN_UP (after_read pins m)))
            BTN_PWR)
    with (buttonState (after_read pins m) BTN_PWR).
  rewrite after_read_buttonState, level_of_HIGH. reflexivity.
Qed.

Lemma changed_scan_UP (pins : Pins) (m : Machine) :
  changed BTN_UP (after_read pins m) = edge pins BTN_UP m.
Proof. unfold changed, edge. rewrite after_read_buttonState. reflexivity. Qed.

Lemma changed_scan_DOWN (pins : Pins) (m : Machine) :
  changed BTN_DOWN (after_body BTN_UP (after_read pins m)) = edge pins BTN_DOWN m.
Proof.
  unfold changed, edge.
  change (buttonState (after_body BTN_UP (after_read pins m)) BTN_DOWN)
    with (buttonState (after_read pins m) BTN_DOWN).
  rewrite after_read_buttonState. reflexivity.
Qed.

Lemma changed_scan_PWR (pins : Pins) (m : Machine) :
  changed BTN_PWR (after_body BTN_DOWN (after_body BTN_UP (after_read pins m)))
  = edge pins BTN_PWR m.
Proof.
  unfold changed, edge.
  change (buttonState (after_body BTN_DOWN (after_body BTN_UP (after_read pins m)))
            BTN_PWR)
    with (buttonState (after_read pins m) BTN_PWR).
  rewrite after_read_buttonState. reflexivity.
Qed.

Lemma scan_level (pins : Pins) (m : Machine) :
  current_pas_level (after_scan pins m) = scanned_level pins m.
Proof.
  unfold after_scan, scanned_level.
  unfold after_body at 1; cbn [current_pas_level].
  rewrite released_scan_PWR.
  assert (H : current_pas_level (after_body BTN_DOWN (after_body BTN_UP (after_read pins m)))
              = scanned_level pins m).
  { unfold scanned_level.
    unfold after_body at 1; cbn [current_pas_level].
    rewrite released_scan_DOWN.
    unfold after_body at 1 2; cbn [current_pas_level].
    rewrite released_scan_UP.
    change (current_pas_level (after_read pins m)) with (current_pas_level m).
    destruct (release_edge pins BTN_UP m), (release_edge pins BTN_DOWN m);
      reflexivity. }
  rewrite H. destruct (release_edge pins BTN_PWR m); reflexivity.
Qed.

Lemma scan_dirty (pins : Pins) (m : Machine) :
  dirty (after_scan pins m)
  = release_edge pins BTN_PWR m || (release_edge pins BTN_DOWN m
      || (release_edge pins BTN_UP m || dirty m)).
Proof.
  unfold after_scan.
  unfold after_body at 1; cbn [dirty]. rewrite released_scan_PWR.
  unfold after_body at 1; cbn [dirty]. rewrite released_scan_DOWN.
  unfold after_body at 1; cbn [dirty]. rewrite released_scan_UP.
  reflexivity.
Qed.

Lemma scan_trace (pins : Pins) (m : Machine) :
  trace (after_scan pins m)
  = trace m ++ bounce_delay (edge pins BTN_UP m)
      ++ bounce_delay (edge pins BTN_DOWN m)
      ++ bounce_delay (edge pins BTN_PWR m).
Proof.
  unfold after_scan.
  unfold after_body at 1; cbn [trace]. rewrite changed_scan_PWR.
  unfold after_body at 1; cbn [trace]. rewrite changed_scan_DOWN.
  unfold after_body at 1; cbn [trace]. rewrite changed_scan_UP.
  change (trace (after_read pins m)) with (trace m).
  rewrite <- !app_assoc. reflexivity.
Qed.

Lemma scan_pwm (pins : Pins) (m : Machine) : pwm (after_scan pins m) = pwm m.
Proof. reflexivity. Qed.

Lemma scan_buttonState (pins : Pins) (m : Machine) (i : ButtonStates) :
  buttonState (after_scan pins m) i = level_of (pins (pin_of i)).
Proof. apply after_read_buttonState. Qed.

Lemma scan_lastButtonState (pins : Pins) (m : Machine) (i : ButtonStates) :
  lastButtonState (after_scan pins m) i = level_of (pins (pin_of i)).
Proof.
  destruct i; cbn; unfold upd, ButtonStates_eqb; cbn;
    rewrite !u8_level_of; reflexivity.
Qed.

Lemma updatePAS_eq (m : Machine) : updatePAS m = (tt, after_update m).
Proof.
  unfold updatePAS, after_update, when, bind, get, ret.
  destruct (current_pas_level m <? MAX_PAS_LEVEL); [|reflexivity].
  destruct (nth_error PAS2Color (Z.to_nat (current_pas_level m)));
    [apply setColor_eq | reflexivity].
Qed.

Lemma flush_eq (m : Machine) : flush m = (tt, after_flush m).
Proof.
  unfold flush, after_flush, when, bind, get, ret.
  destruct (dirty m); [|reflexivity].
  rewrite updatePAS_eq, sendNewState_eq. reflexivity.
Qed.

Lemma loop_eq (pins : Pins) (m : Machine) :
  loop pins m = (tt, after_flush (after_scan pins m)).
Proof. unfold loop, bind. rewrite scan_buttons_eq. apply flush_eq. Qed.

Lemma update_trace (m : Machine) :
  trace (after_update m) = trace m ++ led_events (current_pas_level m).
Proof.
  unfold after_update, led_events.
  destruct (current_pas_level m <? MAX_PAS_LEVEL);
    [|symmetry; apply app_nil_r].
  destruct (nth_error PAS2Color (Z.to_nat (current_pas_level m)));
    [reflexivity | symmetry; apply app_nil_r].
Qed.

Lemma update_level (m : Machine) :
  current_pas_level (after_update m) = current_pas_level m.
Proof.
  unfold after_update.
  destruct (current_pas_level m <? MAX_PAS_LEVEL); [|reflexivity].
  destruct (nth_error PAS2Color (Z.to_nat (current_pas_level m))); reflexivity.
Qed.

Lemma update_buttons (m : Machine) :
  buttonState (after_update m) = buttonState m
  /\ lastButtonState (after_update m) = lastButtonState m.
Proof.
  unfold after_update.
  destruct (current_pas_level m <? MAX_PAS_LEVEL); [|split; reflexivity].
  destruct (nth_error PAS2Color (Z.to_nat (current_pas_level m)));
    split; reflexivity.
Qed.

Lemma flush_level (m : Machine) :
  current_pas_level (after_flush m) = current_pas_level m.
Proof.
  unfold after_flush. destruct (dirty m); [|reflexivity].
  cbn. apply update_level.
Qed.

Lemma flush_dirty (m : Machine) : dirty (after_flush m) = false.
Proof.
  unfold after_flush. destruct (dirty m) eqn:Hd; [reflexivity | exact Hd].
Qed.

Lemma flush_buttons (m : Machine) :
  buttonState (after_flush m) = buttonState m
  /\ lastButtonState (after_flush m) = lastButtonState m.
Proof.
  unfold after_flush. destruct (dirty m); [|split; reflexivity].
  cbn. apply update_buttons.
Qed.

Lemma flush_trace (m : Machine) :
  trace (after_flush m)
  = trace m ++ if dirty m
               then led_events (current_pas_level m)
                    ++ sent_events (current_pas_level m)
               else [].
Proof.
  unfold after_flush. destruct (dirty m); [|symmetry; apply app_nil_r].
  cbn [set_dirty after_send trace].
  rewrite update_trace, update_level, <- app_assoc. reflexivity.
Qed.

(** *** One pass of [loop] *)

Lemma loop_level (pins : Pins) (m : Machine) :
  current_pas_level (exec (loop pins) m) = scanned_level pins m.
Proof.
  unfold exec. rewrite loop_eq. cbn [snd].
  rewrite flush_level. apply scan_level.
Qed.

Lemma scan_buttons_dirty (pins : Pins) (m : Machine) :
  dirty (exec (scan_buttons pins) m) = scanned_dirty pins m.
Proof. unfold exec. rewrite scan_buttons_eq. apply scan_dirty. Qed.

Lemma loop_events (pins : Pins) (m : Machine) :
  events_of (loop pins) m
  = bounce_delay (edge pins BTN_UP m)
      ++ bounce_delay (edge pins BTN_DOWN m)
      ++ bounce_delay (edge pins BTN_PWR m)
      ++ if scanned_dirty pins m
         then led_events (scanned_level pins m)
              ++ sent_events (scanned_level pins m)
         else [].
Proof.
  apply events_of_app. unfold exec. rewrite loop_eq. cbn [snd].
  rewrite flush_trace, scan_trace, scan_dirty, scan_level.
  rewrite <- !app_assoc. reflexivity.
Qed.

Lemma serial_out_app (a c : list Event) :
  serial_out (a ++ c) = serial_out a ++ serial_out c.
Proof.
  induction a as [|e a IH]; [reflexivity|].
  destruct e; cbn; rewrite IH; reflexivity.
Qed.

Lemma serial_out_bounce (x : bool) : serial_out (bounce_delay x) = [].
Proof. destruct x; reflexivity. Qed.

Lemma serial_out_led (lvl : Z) : serial_out (led_events lvl) = [].
Proof.
  unfold led_events. destruct (lvl <? MAX_PAS_LEVEL); [|reflexivity].
  destruct (nth_error PAS2Color (Z.to_nat lvl)); reflexivity.
Qed.

Lemma loop_transmitted (pins : Pins) (m : Machine) :
  transmitted (loop pins) m
  = if scanned_dirty pins m
    then [pas_packet (scanned_level pins m); light_packet; wheel_packet]
    else [].
Proof.
  unfold transmitted. rewrite loop_events, !serial_out_app, !serial_out_bounce.
  destruct (scanned_dirty pins m); [|reflexivity].
  rewrite serial_out_app, serial_out_led. reflexivity.
Qed.

Lemma sendNewState_transmitted (m : Machine) :
  transmitted sendNewState m
  = [pas_packet (current_pas_level m); light_packet; wheel_packet].
Proof.
  unfold transmitted.
  rewrite (events_of_app sendNewState m (sent_events (current_pas_level m))).
  - reflexivity.
  - unfold exec. rewrite sendNewState_eq. reflexivity.
Qed.

Lemma loop_level_range (pins : Pins) (m : Machine) :
  0 <= current_pas_level m < 256 ->
  0 <= current_pas_level (exec (loop pins) m) < 256.
Proof.
  intros Hm. rewrite loop_level. unfold scanned_level.
  destruct (release_edge pins BTN_UP m), (release_edge pins BTN_DOWN m);
    try apply u8_range; exact Hm.
Qed.

(** The per-channel view of the [for] body: what one pass does to the
    counter and to [dirty]. *)
Lemma loop_body_level (i : ButtonStates) (m : Machine) :
  current_pas_level (exec (loop_body i) m)
  = (if released i m then
       match i with
       | BTN_UP => u8 (current_pas_level m + 1)
       | BTN_DOWN => u8 (current_pas_level m - 1)
       | BTN_PWR => current_pas_level m
       end
     else current_pas_level m)
  /\ dirty (exec (loop_body i) m) = released i m || dirty m.
Proof. unfold exec. rewrite loop_body_eq. split; reflexivity. Qed.

Lemma pas_byte_table (lvl : Z) : pas_byte lvl = spec_pas_subcommand lvl.
Proof.
  destruct lvl as [|p|p]; try reflexivity.
  do 3 (try (destruct p as [p|p|]; try reflexivity)).
Qed.

Lemma checksum_ok_pas (lvl : Z) : checksum_ok (pas_packet lvl) = true.
Proof.
  unfold checksum_ok, pas_packet.
  cbn [last removelast sum_bytes fold_right].
  apply Z.eqb_eq. f_equal. lia.
Qed.

Lemma events_of_unchanged {A} (c : M A) (m : Machine) :
  exec c m = m -> events_of c m = [].
Proof. intros H. unfold events_of. rewrite H. apply skipn_all. Qed.

Lemma updatePAS_in_table (m : Machine) (n : nat) (c : Color) :
  current_pas_level m = Z.of_nat n ->
  nth_error PAS2Color n = Some c ->
  exec updatePAS m = after_setColor c m.
Proof.
  intros Hl Hc. unfold exec. rewrite updatePAS_eq. cbn [snd].
  unfold after_update. rewrite Hl, Nat2Z.id, Hc.
  assert (Hn : (n < length PAS2Color)%nat)
    by (apply nth_error_Some; rewrite Hc; discriminate).
  cbn [length PAS2Color] in Hn.
  destruct (Z.ltb_spec (Z.of_nat n) MAX_PAS_LEVEL) as [_|Hge];
    [reflexivity | unfold MAX_PAS_LEVEL in Hge; lia].
Qed.

Lemma setColor_led (c : Color) (m : Machine) :
  led_color (after_setColor c m) = c
  /\ led_writes (skipn (length (trace m)) (trace (after_setColor c m)))
     = [(PIN_RED, r c); (PIN_GREEN, g c); (PIN_BLUE, b c)].
Proof.
  split; [destruct c; reflexivity|].
  cbn [after_setColor trace]. rewrite skipn_length_app. reflexivity.
Qed.

(** The first pass after boot with no button touched: all three lines
    read HIGH against the zero-initialised [lastButtonState], so UP and
    DOWN both count, the level is back at 1 and the state is sent. *)
Example first_pass_untouched :
  current_pas_level idle = 1
  /\ transmitted (loop all_high) boot
     = [[0x16; 0x08; 0x01; 0x1F]; [0x16; 0x1A; 0xF0; 0x00];
        [0x16; 0x1F; 0xC6; 0x90; 0x35]].
Proof. split; reflexivity. Qed.

(** * The claims *)

(** C1 (checksum framing of all three packets; the code departs from it):
    of the three packets [sendNewState] writes, whatever the machine
    state, only the PAS packet ends in the 8-bit sum of its preceding
    bytes.  The backlight packet ends in 0x00 where the sum is 0x20, and
    the wheel packet ends in 0x35 where the sum is 0x8B. *)
Theorem C1_checksum_only_holds_for_pas (m : Machine) :
  map checksum_ok (transmitted sendNewState m) = [true; false; false]
  /\ map (fun pkt => last pkt (-1)) (tl (transmitted sendNewState m))
     = [0x00; 0x35]
  /\ map (fun pkt => u8 (sum_bytes (removelast pkt)))
       (tl (transmitted sendNewState m))
     = [0x20; 0x8B].
Proof.
  rewrite sendNewState_transmitted.
  cbn [map tl]. rewrite checksum_ok_pas.
  repeat split.
Qed.

(** C2 (PAS packet): for every value of the assist level, the first
    packet [sendNewState] writes is [0x16, 0x08, m, c] with [m] taken from
    the table 0->0x00, 1->0x01, 2->0x0B, 3->0x0C, 4->0x0D, other->0x00 and
    [c = (0x16 + 0x08 + m) mod 256]; a pass of [loop] that transmits sends
    that packet for the level it ends with. *)
Theorem C2_pas_packet (m : Machine) (pins : Pins) :
  nth_error (transmitted sendNewState m) 0
  = Some [0x16; 0x08; spec_pas_subcommand (current_pas_level m);
          (0x16 + 0x08 + spec_pas_subcommand (current_pas_level m)) mod 256]
  /\ (transmitted (loop pins) m = []
      \/ nth_error (transmitted (loop pins) m) 0
         = Some (let lvl := current_pas_level (exec (loop pins) m) in
                 [0x16; 0x08; spec_pas_subcommand lvl;
                  (0x16 + 0x08 + spec_pas_subcommand lvl) mod 256])).
Proof.
  split.
  - rewrite sendNewState_transmitted. cbn [nth_error].
    unfold pas_packet. rewrite pas_byte_table. reflexivity.
  - rewrite loop_transmitted, loop_level.
    destruct (scanned_dirty pins m); [right | left; reflexivity].
    cbn [nth_error]. unfold pas_packet. rewrite pas_byte_table. reflexivity.
Qed.

(** C3 (wheel packet): the wheel packet is always
    [0x16, 0x1F, 0xC6, 0x90, 0x35].  Its last byte is the sum taken while
    the diameter was still zero, its diameter bytes are the low and the
    high byte of 0x90C6, and the 8-bit sum of the four bytes actually
    sent before it is 0x8B, so the framing rule does not hold for it. *)
Theorem C3_wheel_packet (m : Machine) (pins : Pins) :
  nth_error (transmitted sendNewState m) 2
  = Some [0x16; 0x1F; Z.land 0x90C6 0xFF; Z.shiftr 0x90C6 8;
          u8 (0x16 + 0x1F + 0)]
  /\ (transmitted (loop pins) m = []
      \/ nth_error (transmitted (loop pins) m) 2
         = Some [0x16; 0x1F; 0xC6; 0x90; 0x35])
  /\ u8 (0x16 + 0x1F + 0) = 0x35
  /\ Z.land 0x90C6 0xFF = 0xC6
  /\ Z.shiftr 0x90C6 8 = 0x90
  /\ u8 (sum_bytes [0x16; 0x1F; 0xC6; 0x90]) = 0x8B
  /\ checksum_ok [0x16; 0x1F; 0xC6; 0x90; 0x35] = false.
Proof.
  split; [rewrite sendNewState_transmitted; reflexivity|].
  split; [|repeat split].
  rewrite loop_transmitted.
  destruct (scanned_dirty pins m); [right | left]; reflexivity.
Qed.

(** C4 (backlight packet; the code departs from it): the backlight
    packet is the same four bytes in every state, but they are
    [0x16, 0x1A, 0xF0, 0x00]: the checksum field keeps its initial zero,
    while [(0x16 + 0x1A + 0xF0) mod 256] is 0x20. *)
Theorem C4_backlight_packet (m : Machine) (pins : Pins) :
  nth_error (transmitted sendNewState m) 1 = Some [0x16; 0x1A; 0xF0; 0x00]
  /\ (transmitted (loop pins) m = []
      \/ nth_error (transmitted (loop pins) m) 1
         = Some [0x16; 0x1A; 0xF0; 0x00])
  /\ (0x16 + 0x1A + 0xF0) mod 256 = 0x20
  /\ checksum_ok [0x16; 0x1A; 0xF0; 0x00] = false.
Proof.
  split; [rewrite sendNewState_transmitted; reflexivity|].
  split; [|repeat split].
  rewrite loop_transmitted.
  destruct (scanned_dirty pins m); [right | left]; reflexivity.
Qed.

(** C5 as stated fails: from the boot state, a pass in which only the UP
    line produces an edge does not send [0x16, 0x08, 0x01, 0x1F]; the
    counter is incremented before the packet is built. *)
Lemma C5_counterexample :
  current_pas_level boot = 1
  /\ release_edge only_up BTN_UP boot = true
  /\ edge only_up BTN_DOWN boot = false
  /\ edge only_up BTN_PWR boot = false
  /\ nth_error (transmitted (loop only_up) boot) 0
     = Some [0x16; 0x08; 0x0B; 0x29]
  /\ nth_error (transmitted (loop only_up) boot) 0
     <> Some [0x16; 0x08; 0x01; 0x1F].
Proof. repeat split. discriminate. Qed.

(** C5 (amended): with the assist level at 1, as after boot, a pass of
    [loop] in which the UP line is released and the DOWN line is not
    raises the level to 2 and transmits the PAS packet
    [0x16, 0x08, 0x0B, 0x29], followed by the backlight and the wheel
    packet. *)
Theorem C5_up_edge_from_level_1 (pins : Pins) (m : Machine) :
  current_pas_level m = 1 ->
  release_edge pins BTN_UP m = true ->
  release_edge pins BTN_DOWN m = false ->
  current_pas_level (exec (loop pins) m) = 2
  /\ transmitted (loop pins) m
     = [[0x16; 0x08; 0x0B; 0x29]; [0x16; 0x1A; 0xF0; 0x00];
        [0x16; 0x1F; 0xC6; 0x90; 0x35]].
Proof.
  intros Hl Hup Hdown.
  rewrite loop_level, loop_transmitted.
  unfold scanned_dirty, scanned_level. rewrite Hup, Hdown, Hl.
  rewrite !orb_true_r. split; reflexivity.
Qed.

Lemma C5_up_edge_from_level_1_witness :
  current_pas_level (exec (loop only_up) boot) = 2
  /\ transmitted (loop only_up) boot
     = [[0x16; 0x08; 0x0B; 0x29]; [0x16; 0x1A; 0xF0; 0x00];
        [0x16; 0x1F; 0xC6; 0x90; 0x35]].
Proof. apply (C5_up_edge_from_level_1 only_up boot); reflexivity. Defined.

(** C6 as stated fails: releasing the power button, with no edge on UP
    and DOWN, sets [dirty] and sends all three packets. *)
Lemma C6_counterexample :
  dirty power_held = false
  /\ edge all_high BTN_UP power_held = false
  /\ edge all_high BTN_DOWN power_held = false
  /\ release_edge all_high BTN_PWR power_held = true
  /\ dirty (exec (scan_buttons all_high) power_held) = true
  /\ transmitted (loop all_high) power_held
     = [[0x16; 0x08; 0x01; 0x1F]; [0x16; 0x1A; 0xF0; 0x00];
        [0x16; 0x1F; 0xC6; 0x90; 0x35]]
  /\ ~ (dirty (exec (scan_buttons all_high) power_held) = false
        /\ transmitted (loop all_high) power_held = []).
Proof. repeat split. intros [H _]. discriminate H. Qed.

(** C6 (amended): in a pass of [loop] that starts with [dirty] clear and
    in which only the POWER line changes, the assist level is unchanged.
    If the line went low (button pressed), [dirty] stays clear and nothing
    is transmitted; if it went high (button released), [dirty] is set by
    the [for] statement and the three packets are transmitted for the
    unchanged level. *)
Theorem C6_power_edge_only (pins : Pins) (m : Machine) :
  dirty m = false ->
  edge pins BTN_UP m = false ->
  edge pins BTN_DOWN m = false ->
  edge pins BTN_PWR m = true ->
  current_pas_level (exec (loop pins) m) = current_pas_level m
  /\ dirty (exec (scan_buttons pins) m) = pins PIN_BTN_PWR
  /\ transmitted (loop pins) m
     = if pins PIN_BTN_PWR
       then [pas_packet (current_pas_level m); [0x16; 0x1A; 0xF0; 0x00];
             [0x16; 0x1F; 0xC6; 0x90; 0x35]]
       else [].
Proof.
  intros Hd Hup Hdown Hpwr.
  rewrite loop_level, scan_buttons_dirty, loop_transmitted.
  unfold scanned_dirty, scanned_level, release_edge.
  rewrite Hd, Hup, Hdown, Hpwr. cbn [andb orb pin_of].
  rewrite !orb_false_r.
  destruct (pins PIN_BTN_PWR); repeat split.
Qed.

Lemma C6_power_edge_only_witness :
  (current_pas_level (exec (loop all_high) power_held) = 1
   /\ dirty (exec (scan_buttons all_high) power_held) = true
   /\ transmitted (loop all_high) power_held
      = [[0x16; 0x08; 0x01; 0x1F]; [0x16; 0x1A; 0xF0; 0x00];
         [0x16; 0x1F; 0xC6; 0x90; 0x35]])
  /\ (current_pas_level (exec (loop pwr_held) idle) = 1
      /\ dirty (exec (scan_buttons pwr_held) idle) = false
      /\ transmitted (loop pwr_held) idle = []).
Proof.
  split.
  - apply (C6_power_edge_only all_high power_held); reflexivity.
  - apply (C6_power_edge_only pwr_held idle); reflexivity.
Defined.

(** C7 as stated fails: with the counter at 1, as at boot, one decrement
    gives 0, not the maximum 255. *)
Lemma C7_counterexample :
  current_pas_level boot = 1
  /\ release_edge only_down BTN_DOWN boot = true
  /\ release_edge only_down BTN_UP boot = false
  /\ current_pas_level (exec (loop only_down) boot) = 0
  /\ current_pas_level (exec (loop only_down) boot) <> UINT8_MAX.
Proof. repeat split. discriminate. Qed.

(** C7 (amended): a decrement takes the 8-bit counter from 1 to 0 and
    from 0 to its maximum 255, without clamping at 0; an increment from
    255 wraps the counter to 0. *)
Theorem C7_counter_wraps (pins : Pins) (m : Machine) :
  (release_edge pins BTN_DOWN m = true ->
   release_edge pins BTN_UP m = false ->
   (current_pas_level m = 1 -> current_pas_level (exec (loop pins) m) = 0)
   /\ (current_pas_level m = 0 ->
       current_pas_level (exec (loop pins) m) = UINT8_MAX))
  /\ (release_edge pins BTN_UP m = true ->
      release_edge pins BTN_DOWN m = false ->
      current_pas_level m = UINT8_MAX ->
      current_pas_level (exec (loop pins) m) = 0).
Proof.
  rewrite loop_level. unfold scanned_level.
  split.
  - intros Hdown Hup. rewrite Hdown, Hup.
    split; intros Hl; rewrite Hl; reflexivity.
  - intros Hup Hdown Hl. rewrite Hdown, Hup, Hl. reflexivity.
Qed.

Lemma C7_counter_wraps_witness :
  current_pas_level (exec (loop only_down) boot) = 0
  /\ current_pas_level (exec (loop only_down) (with_level 0 boot)) = UINT8_MAX
  /\ current_pas_level (exec (loop only_up) (with_level UINT8_MAX boot)) = 0.
Proof.
  split; [|split].
  - apply (proj1 (C7_counter_wraps only_down boot)); reflexivity.
  - apply (proj1 (C7_counter_wraps only_down (with_level 0 boot)));
      reflexivity.
  - apply (proj2 (C7_counter_wraps only_up (with_level UINT8_MAX boot)));
      reflexivity.
Defined.

(** C8 (LED update): [updatePAS] writes red at level 0, green at 1, blue
    at 2 and magenta at 3, as three [analogWrite] calls on the red, green
    and blue pins; at every level of 4 or more it writes nothing and
    leaves the machine, the LED included, as it was, whereas writing any
    colour at all would show as three pin writes. *)
Theorem C8_led_update (m : Machine) :
  (current_pas_level m = 0 ->
   led_color (exec updatePAS m) = RED
   /\ led_writes (events_of updatePAS m)
      = [(PIN_RED, 255); (PIN_GREEN, 0); (PIN_BLUE, 0)])
  /\ (current_pas_level m = 1 ->
      led_color (exec updatePAS m) = GREEN
      /\ led_writes (events_of updatePAS m)
         = [(PIN_RED, 0); (PIN_GREEN, 255); (PIN_BLUE, 0)])
  /\ (current_pas_level m = 2 ->
      led_color (exec updatePAS m) = BLUE
      /\ led_writes (events_of updatePAS m)
         = [(PIN_RED, 0); (PIN_GREEN, 0); (PIN_BLUE, 255)])
  /\ (current_pas_level m = 3 ->
      led_color (exec updatePAS m) = MAGENTA
      /\ led_writes (events_of updatePAS m)
         = [(PIN_RED, 255); (PIN_GREEN, 0); (PIN_BLUE, 255)])
  /\ (4 <= current_pas_level m ->
      exec updatePAS m = m
      /\ events_of updatePAS m = []
      /\ forall c : Color,
           led_writes (events_of (setColor c) m)
           = [(PIN_RED, r c); (PIN_GREEN, g c); (PIN_BLUE, b c)]).
Proof.
  split_all.
  - intros Hl. unfold events_of.
    rewrite (updatePAS_in_table m 0 RED Hl eq_refl). apply setColor_led.
  - intros Hl. unfold events_of.
    rewrite (updatePAS_in_table m 1 GREEN Hl eq_refl). apply setColor_led.
  - intros Hl. unfold events_of.
    rewrite (updatePAS_in_table m 2 BLUE Hl eq_refl). apply setColor_led.
  - intros Hl. unfold events_of.
    rewrite (updatePAS_in_table m 3 MAGENTA Hl eq_refl). apply setColor_led.
  - intros Hl.
    assert (Hsame : exec updatePAS m = m).
    { unfold exec. rewrite updatePAS_eq. cbn [snd]. unfold after_update.
      destruct (Z.ltb_spec (current_pas_level m) MAX_PAS_LEVEL) as [Hlt|_];
        [unfold MAX_PAS_LEVEL in Hlt; lia | reflexivity]. }
    split; [exact Hsame|].
    split; [apply events_of_unchanged, Hsame|].
    intros c. unfold events_of, exec. rewrite setColor_eq. cbn [snd].
    apply setColor_led.
Qed.

Lemma C8_led_update_witness :
  led_color (exec updatePAS (with_level 0 boot)) = RED
  /\ led_color (exec updatePAS boot) = GREEN
  /\ led_color (exec updatePAS (with_level 2 boot)) = BLUE
  /\ led_color (exec updatePAS (with_level 3 boot)) = MAGENTA
  /\ exec updatePAS (with_level 4 boot) = with_level 4 boot
  /\ exec updatePAS (with_level UINT8_MAX boot) = with_level UINT8_MAX boot.
Proof.
  split_all.
  - apply (C8_led_update (with_level 0 boot)). reflexivity.
  - apply (C8_led_update boot). reflexivity.
  - apply (C8_led_update (with_level 2 boot)). reflexivity.
  - apply (C8_led_update (with_level 3 boot)). reflexivity.
  - apply (C8_led_update (with_level 4 boot)). cbn. lia.
  - apply (C8_led_update (with_level UINT8_MAX boot)). cbn. lia.
Defined.

(** C9 (edge actions): the assist level changes only through a line
    that went to HIGH.  Channel by channel, in the body of the [for]
    statement: UP changed to HIGH increments the level, DOWN changed to
    HIGH decrements it (both modulo 256), a channel that did not change to
    HIGH leaves the level and [dirty] alone, and in particular a change to
    LOW does.  For a whole pass of [loop], with the change read off the
    pins: UP alone going to HIGH increments, DOWN alone going to HIGH
    decrements, and the level differs after the pass only if UP or DOWN
    went to HIGH. *)
Theorem C9_edge_actions (pins : Pins) (m : Machine) :
  (released BTN_UP m = true ->
   current_pas_level (exec (loop_body BTN_UP) m) = u8 (current_pas_level m + 1))
  /\ (released BTN_DOWN m = true ->
      current_pas_level (exec (loop_body BTN_DOWN) m)
      = u8 (current_pas_level m - 1))
  /\ (forall i : ButtonStates,
        released i m = false ->
        current_pas_level (exec (loop_body i) m) = current_pas_level m
        /\ dirty (exec (loop_body i) m) = dirty m)
  /\ (forall i : ButtonStates,
        changed i m = true ->
        buttonState m i = LOW ->
        current_pas_level (exec (loop_body i) m) = current_pas_level m)
  /\ (release_edge pins BTN_UP m = true ->
      release_edge pins BTN_DOWN m = false ->
      current_pas_level (exec (loop pins) m) = u8 (current_pas_level m + 1))
  /\ (release_edge pins BTN_DOWN m = true ->
      release_edge pins BTN_UP m = false ->
      current_pas_level (exec (loop pins) m) = u8 (current_pas_level m - 1))
  /\ (current_pas_level (exec (loop pins) m) <> current_pas_level m ->
      release_edge pins BTN_UP m = true
      \/ release_edge pins BTN_DOWN m = true).
Proof.
  rewrite loop_level. unfold scanned_level.
  split_all.
  - intros Hup. rewrite (proj1 (loop_body_level BTN_UP m)), Hup. reflexivity.
  - intros Hdown.
    rewrite (proj1 (loop_body_level BTN_DOWN m)), Hdown. reflexivity.
  - intros i Hi. destruct (loop_body_level i m) as [Hl Hd].
    rewrite Hl, Hd, Hi. split; reflexivity.
  - intros i _ Hlow. rewrite (proj1 (loop_body_level i m)).
    unfold released. rewrite Hlow, andb_false_r. reflexivity.
  - intros Hup Hdown. rewrite Hup, Hdown. reflexivity.
  - intros Hdown Hup. rewrite Hup, Hdown. reflexivity.
  - destruct (release_edge pins BTN_UP m); [left; reflexivity|].
    destruct (release_edge pins BTN_DOWN m); [right; reflexivity|].
    intros H. contradiction H. reflexivity.
Qed.

Lemma C9_edge_actions_witness :
  current_pas_level (exec (loop_body BTN_UP) (exec (read_buttons only_up) boot))
  = 2
  /\ current_pas_level
       (exec (loop_body BTN_DOWN) (exec (read_buttons only_down) boot))
     = 0
  /\ current_pas_level (exec (loop_body BTN_PWR) boot) = 1
  /\ current_pas_level (exec (loop_body BTN_UP) (exec (read_buttons all_low) idle))
     = 1
  /\ current_pas_level (exec (loop only_up) boot) = 2
  /\ current_pas_level (exec (loop only_down) boot) = 0
  /\ (release_edge only_up BTN_UP boot = true
      \/ release_edge only_up BTN_DOWN boot = true).
Proof.
  split_all.
  - destruct (C9_edge_actions all_high (exec (read_buttons only_up) boot))
      as (H & _).
    apply H. reflexivity.
  - destruct (C9_edge_actions all_high (exec (read_buttons only_down) boot))
      as (_ & H & _).
    apply H. reflexivity.
  - destruct (C9_edge_actions all_high boot) as (_ & _ & H & _).
    apply (H BTN_PWR). reflexivity.
  - destruct (C9_edge_actions all_high (exec (read_buttons all_low) idle))
      as (_ & _ & _ & H & _).
    apply (H BTN_UP); reflexivity.
  - destruct (C9_edge_actions only_up boot) as (_ & _ & _ & _ & H & _).
    apply H; reflexivity.
  - destruct (C9_edge_actions only_down boot) as (_ & _ & _ & _ & _ & H & _).
    apply H; reflexivity.
  - destruct (C9_edge_actions only_up boot) as (_ & _ & _ & _ & _ & _ & H).
    apply H. discriminate.
Defined.

(** C10 (end of a pass): after every pass of [loop], from any state and
    for any reading of the pins, the remembered level of each of the
    three channels equals its sampled level and [dirty] is false. *)
Theorem C10_loop_end_state (pins : Pins) (m : Machine) :
  (forall i : ButtonStates,
     lastButtonState (exec (loop pins) m) i
     = buttonState (exec (loop pins) m) i)
  /\ dirty (exec (loop pins) m) = false.
Proof.
  unfold exec. rewrite loop_eq. cbn [snd].
  split; [|apply flush_dirty].
  intros i. destruct (flush_buttons (after_scan pins m)) as [Hb Hl].
  rewrite Hb, Hl, scan_buttonState, scan_lastButtonState. reflexivity.
Qed.


(** * Further properties of the sketch *)

(** ** A pass of [loop], field by field *)

Lemma loop_trace (pins : Pins) (m : Machine) :
  trace (exec (loop pins) m) = trace m ++ events_of (loop pins) m.
Proof.
  rewrite loop_events. unfold exec. rewrite loop_eq. cbn [snd].
  rewrite flush_trace, scan_trace, scan_dirty, scan_level.
  rewrite <- !app_assoc. reflexivity.
Qed.

Lemma loop_buttonState (pins : Pins) (m : Machine) (i : ButtonStates) :
  buttonState (exec (loop pins) m) i = level_of (pins (pin_of i)).
Proof.
  unfold exec. rewrite loop_eq. cbn [snd].
  rewrite (proj1 (flush_buttons (after_scan pins m))). apply scan_buttonState.
Qed.

Lemma loop_lastButtonState (pins : Pins) (m : Machine) (i : ButtonStates) :
  lastButtonState (exec (loop pins) m) i = level_of (pins (pin_of i)).
Proof.
  unfold exec. rewrite loop_eq. cbn [snd].
  rewrite (proj2 (flush_buttons (after_scan pins m))).
  apply scan_lastButtonState.
Qed.

Lemma loop_dirty (pins : Pins) (m : Machine) :
  dirty (exec (loop pins) m) = false.
Proof. unfold exec. rewrite loop_eq. apply flush_dirty. Qed.

(** A release is a high reading of a line remembered as not high. *)
Lemma release_edge_rise (pins : Pins) (i : ButtonStates) (m : Machine) :
  release_edge pins i m = pins (pin_of i) && negb (remembered_high m i).
Proof.
  unfold release_edge, edge, remembered_high.
  destruct (pins (pin_of i)); cbn [level_of andb];
    [rewrite Z.eqb_sym, andb_true_r | rewrite andb_false_r]; reflexivity.
Qed.

Lemma remembered_high_loop (pins : Pins) (m : Machine) (i : ButtonStates) :
  remembered_high (exec (loop pins) m) i = pins (pin_of i).
Proof.
  unfold remembered_high. rewrite loop_lastButtonState. apply level_of_HIGH.
Qed.

Lemma edge_after_loop (pins pins' : Pins) (m : Machine) (i : ButtonStates) :
  edge pins' i (exec (loop pins) m)
  = xorb (pins' (pin_of i)) (pins (pin_of i)).
Proof.
  unfold edge. rewrite loop_lastButtonState.
  destruct (pins' (pin_of i)), (pins (pin_of i)); reflexivity.
Qed.

Lemma scanned_level_in_range (pins : Pins) (m : Machine) :
  0 <= current_pas_level m < 256 ->
  scanned_level pins m
  = u8 (current_pas_level m + click (release_edge pins BTN_UP m)
        - click (release_edge pins BTN_DOWN m)).
Proof.
  intros Hl. unfold scanned_level.
  destruct (release_edge pins BTN_UP m), (release_edge pins BTN_DOWN m);
    cbn [click].
  - rewrite u8_succ_pred. f_equal. lia.
  - f_equal. lia.
  - f_equal. lia.
  - rewrite u8_small by lia. lia.
Qed.

Lemma u8_add_l (x y : Z) : u8 (u8 x + y) = u8 (x + y).
Proof. unfold u8. apply Zplus_mod_idemp_l. Qed.

(** ** Runs *)

Lemma run_nil (m : Machine) : exec (run []) m = m.
Proof. reflexivity. Qed.

Lemma run_cons (pins : Pins) (rest : list Pins) (m : Machine) :
  exec (run (pins :: rest)) m = exec (run rest) (exec (loop pins) m).
Proof.
  unfold run, exec. cbn [for_each]. unfold bind.
  destruct (loop pins m) as [u m']. reflexivity.
Qed.

Lemma run_trace (inputs : list Pins) (m : Machine) :
  trace (exec (run inputs) m) = trace m ++ run_events inputs m.
Proof.
  revert m. induction inputs as [|pins rest IH]; intros m.
  - rewrite run_nil. symmetry. apply app_nil_r.
  - rewrite run_cons, IH, loop_trace. cbn [run_events].
    symmetry. apply app_assoc.
Qed.

Lemma run_events_of (inputs : list Pins) (m : Machine) :
  events_of (run inputs) m = run_events inputs m.
Proof. apply events_of_app, run_trace. Qed.

Lemma settled_loop (pins : Pins) (m : Machine) :
  0 <= current_pas_level m < 256 -> settled (exec (loop pins) m).
Proof.
  intros Hl. split; [apply loop_level_range, Hl|].
  split; [apply loop_dirty|].
  intros i. rewrite loop_lastButtonState, loop_buttonState.
  split; [reflexivity|].
  destruct (pins (pin_of i)); [right | left]; reflexivity.
Qed.

Lemma settled_boot : settled boot.
Proof.
  split; [cbn; lia|]. split; [reflexivity|].
  intros i. split; [reflexivity | left; reflexivity].
Qed.

(** X1.  Whatever the buttons do, however long, the machine stays
    settled from boot on: after every run the counter is within 0..255,
    [dirty] is clear, and [lastButtonState] equals [buttonState] with
    every entry [LOW] or [HIGH]. *)
Theorem run_keeps_settled (inputs : list Pins) :
  settled (exec (run inputs) boot).
Proof.
  assert (H : forall m, settled m -> settled (exec (run inputs) m)).
  { induction inputs as [|pins rest IH]; intros m Hm.
    - exact Hm.
    - rewrite run_cons. apply IH, settled_loop, Hm. }
  apply H, settled_boot.
Qed.

(** X2.  Over a run that starts with the counter within 0..255, the
    assist level ends at its start value plus the number of times the UP
    line went from low to high minus the number of times the DOWN line
    did, modulo 256.  Presses (lines going low) and the POWER line do not
    count. *)
Theorem run_level_counts_releases (inputs : list Pins) (m : Machine) :
  0 <= current_pas_level m < 256 ->
  current_pas_level (exec (run inputs) m)
  = u8 (current_pas_level m
        + rises PIN_BTN_UP (remembered_high m BTN_UP) inputs
        - rises PIN_BTN_DOWN (remembered_high m BTN_DOWN) inputs).
Proof.
  revert m. induction inputs as [|pins rest IH]; intros m Hl.
  - rewrite run_nil. cbn [rises]. rewrite u8_small by lia. lia.
  - rewrite run_cons, IH by (apply loop_level_range, Hl).
    rewrite !remembered_high_loop, loop_level, scanned_level_in_range by exact Hl.
    rewrite !release_edge_rise. cbn [rises pin_of].
    rewrite <- Z.add_sub_assoc, u8_add_l. f_equal. lia.
Qed.

Lemma run_level_counts_releases_witness :
  current_pas_level
    (exec (run [all_high; only_down; all_high; all_low; only_up]) boot)
  = 3.
Proof.
  rewrite (run_level_counts_releases
             [all_high; only_down; all_high; all_low; only_up] boot).
  - reflexivity.
  - cbn. lia.
Defined.

(** X3.  A second pass over the same reading of the pins does nothing:
    no delay, no LED write, no packet, and the level, [dirty] and both
    button arrays stay as the first pass left them. *)
Theorem loop_steady_reading (pins : Pins) (m : Machine) :
  let m1 := exec (loop pins) m in
  let m2 := exec (loop pins) m1 in
  events_of (loop pins) m1 = []
  /\ trace m2 = trace m1
  /\ current_pas_level m2 = current_pas_level m1
  /\ dirty m2 = dirty m1
  /\ forall i : ButtonStates,
       buttonState m2 i = buttonState m1 i
       /\ lastButtonState m2 i = lastButtonState m1 i.
Proof.
  cbv zeta.
  assert (Hev : events_of (loop pins) (exec (loop pins) m) = []).
  { rewrite loop_events. unfold scanned_dirty.
    rewrite !release_edge_rise, !remembered_high_loop, !edge_after_loop.
    rewrite loop_dirty, !xorb_nilpotent, !andb_negb_r. reflexivity. }
  split; [exact Hev|].
  split; [rewrite loop_trace, Hev; apply app_nil_r|].
  split.
  { rewrite (loop_level pins (exec (loop pins) m)). unfold scanned_level.
    rewrite !release_edge_rise, !remembered_high_loop, !andb_negb_r.
    reflexivity. }
  split; [rewrite !loop_dirty; reflexivity|].
  intros i. rewrite !loop_buttonState, !loop_lastButtonState.
  split; reflexivity.
Qed.

(** ** What a pass sends, and when *)

Lemma scanned_dirty_any_rise (pins : Pins) (m : Machine) :
  scanned_dirty pins m = any_rise (remembered_high m) pins || dirty m.
Proof.
  unfold scanned_dirty, any_rise, button_indices. cbn [existsb].
  rewrite !release_edge_rise.
  destruct (pins (pin_of BTN_UP) && negb (remembered_high m BTN_UP)),
    (pins (pin_of BTN_DOWN) && negb (remembered_high m BTN_DOWN)),
    (pins (pin_of BTN_PWR) && negb (remembered_high m BTN_PWR)), (dirty m);
    reflexivity.
Qed.

Lemma any_rise_false (pins : Pins) (m : Machine) :
  any_rise (remembered_high m) pins = false ->
  release_edge pins BTN_UP m = false
  /\ release_edge pins BTN_DOWN m = false
  /\ release_edge pins BTN_PWR m = false.
Proof.
  unfold any_rise, button_indices. cbn [existsb].
  rewrite !release_edge_rise.
  destruct (pins (pin_of BTN_UP) && negb (remembered_high m BTN_UP)),
    (pins (pin_of BTN_DOWN) && negb (remembered_high m BTN_DOWN)),
    (pins (pin_of BTN_PWR) && negb (remembered_high m BTN_PWR));
    intros H; try discriminate H; repeat split.
Qed.

Lemma update_pwm (m : Machine) :
  pwm (after_update m) = led_pwm (current_pas_level m) (pwm m).
Proof.
  unfold after_update, led_pwm.
  destruct (current_pas_level m <? MAX_PAS_LEVEL); [|reflexivity].
  destruct (nth_error PAS2Color (Z.to_nat (current_pas_level m)));
    reflexivity.
Qed.

Lemma loop_pwm (pins : Pins) (m : Machine) :
  pwm (exec (loop pins) m)
  = if scanned_dirty pins m
    then led_pwm (scanned_level pins m) (pwm m)
    else pwm m.
Proof.
  unfold exec. rewrite loop_eq. cbn [snd]. unfold after_flush.
  rewrite scan_dirty. fold (scanned_dirty pins m).
  destruct (scanned_dirty pins m); [|reflexivity].
  cbn [set_dirty after_send pwm]. rewrite update_pwm, scan_level.
  reflexivity.
Qed.

Lemma is_byte_pas_byte (lvl : Z) : is_byte (pas_byte lvl).
Proof.
  rewrite pas_byte_table. unfold spec_pas_subcommand, is_byte.
  repeat match goal with
         | |- context [if ?c then _ else _] => destruct c
         end; lia.
Qed.

Lemma packet_triple_bytes (lvl : Z) :
  map (@length Z) (packet_triple lvl) = [4; 4; 5]%nat
  /\ Forall (Forall is_byte) (packet_triple lvl).
Proof.
  split; [reflexivity|].
  unfold packet_triple, pas_packet, light_packet, wheel_packet.
  repeat constructor;
    try apply is_byte_pas_byte; try apply u8_range; unfold is_byte; lia.
Qed.

(** X4.  A pass that starts with [dirty] clear sends all or nothing.  If
    no line went from low to high, nothing is written to the serial port
    and the level and the LED duties stay as they were.  If some line
    did, exactly three packets are written, PAS, backlight and wheel in
    this order, of 4, 4 and 5 bytes, each byte within 0..255, and the PAS
    packet is the one for the level the pass ends with. *)
Theorem loop_sends_all_or_nothing (pins : Pins) (m : Machine) :
  dirty m = false ->
  (any_rise (remembered_high m) pins = false
   /\ transmitted (loop pins) m = []
   /\ current_pas_level (exec (loop pins) m) = current_pas_level m
   /\ pwm (exec (loop pins) m) = pwm m)
  \/ (any_rise (remembered_high m) pins = true
      /\ transmitted (loop pins) m
         = packet_triple (current_pas_level (exec (loop pins) m))
      /\ map (@length Z) (transmitted (loop pins) m) = [4; 4; 5]%nat
      /\ Forall (Forall is_byte) (transmitted (loop pins) m)).
Proof.
  intros Hd.
  rewrite loop_transmitted, loop_pwm, loop_level, scanned_dirty_any_rise, Hd.
  rewrite orb_false_r.
  destruct (any_rise (remembered_high m) pins) eqn:Hrise; [right | left].
  - split; [reflexivity|]. split; [reflexivity|]. apply packet_triple_bytes.
  - destruct (any_rise_false pins m Hrise) as (Hup & Hdown & _).
    unfold scanned_level. rewrite Hup, Hdown. repeat split.
Qed.

Lemma loop_sends_all_or_nothing_witness :
  (any_rise (remembered_high idle) all_low = false
   /\ transmitted (loop all_low) idle = []
   /\ current_pas_level (exec (loop all_low) idle) = current_pas_level idle
   /\ pwm (exec (loop all_low) idle) = pwm idle)
  \/ (any_rise (remembered_high idle) all_low = true
      /\ transmitted (loop all_low) idle
         = packet_triple (current_pas_level (exec (loop all_low) idle))
      /\ map (@length Z) (transmitted (loop all_low) idle) = [4; 4; 5]%nat
      /\ Forall (Forall is_byte) (transmitted (loop all_low) idle)).
Proof. apply (loop_sends_all_or_nothing all_low idle). reflexivity. Defined.

Lemma transmitted_run_cons (pins : Pins) (rest : list Pins) (m : Machine) :
  transmitted (run (pins :: rest)) m
  = transmitted (loop pins) m ++ transmitted (run rest) (exec (loop pins) m).
Proof.
  unfold transmitted. rewrite !run_events_of. cbn [run_events].
  apply serial_out_app.
Qed.

Lemma rising_passes_ext (f h : ButtonStates -> bool) (inputs : list Pins) :
  (forall i, f i = h i) -> rising_passes f inputs = rising_passes h inputs.
Proof.
  intros Hfh. destruct inputs as [|pins rest]; [reflexivity|].
  cbn [rising_passes]. unfold any_rise, button_indices. cbn [existsb].
  rewrite !Hfh. reflexivity.
Qed.

(** X5.  Over a whole run that starts with [dirty] clear, the serial
    output is a sequence of complete triples PAS, backlight, wheel: one
    triple for each pass in which some line went from low to high, and
    nothing else. *)
Theorem run_sends_whole_triples (inputs : list Pins) (m : Machine) :
  dirty m = false ->
  exists lvls : list Z,
    transmitted (run inputs) m = flat_map packet_triple lvls
    /\ length lvls = rising_passes (remembered_high m) inputs.
Proof.
  revert m. induction inputs as [|pins rest IH]; intros m Hd.
  - exists []. unfold transmitted. rewrite run_events_of.
    split; reflexivity.
  - destruct (IH (exec (loop pins) m) (loop_dirty pins m)) as (lvls & Hl & Hn).
    rewrite transmitted_run_cons, loop_transmitted, scanned_dirty_any_rise, Hd.
    rewrite orb_false_r. cbn [rising_passes].
    rewrite (rising_passes_ext _ _ rest (remembered_high_loop pins m)) in Hn.
    destruct (any_rise (remembered_high m) pins).
    + exists (scanned_level pins m :: lvls). cbn [flat_map length].
      rewrite Hl, Hn. split; reflexivity.
    + exists lvls. rewrite Hl, Hn. split; reflexivity.
Qed.

Lemma run_sends_whole_triples_witness :
  exists lvls : list Z,
    transmitted (run [all_high; all_low; only_up; only_up]) boot
    = flat_map packet_triple lvls
    /\ length lvls
       = rising_passes (remembered_high boot)
           [all_high; all_low; only_up; only_up].
Proof.
  apply (run_sends_whole_triples [all_high; all_low; only_up; only_up] boot).
  reflexivity.
Defined.

(** ** How long a pass blocks *)

Lemma busy_ms_app (a c : list Event) :
  busy_ms (a ++ c) = busy_ms a + busy_ms c.
Proof.
  induction a as [|e a IH]; [reflexivity|].
  destruct e; cbn [app busy_ms]; rewrite IH; lia.
Qed.

Lemma busy_ms_bounce (x : bool) : busy_ms (bounce_delay x) = 50 * click x.
Proof. destruct x; reflexivity. Qed.

Lemma busy_ms_led (lvl : Z) : busy_ms (led_events lvl) = 0.
Proof.
  unfold led_events. destruct (lvl <? MAX_PAS_LEVEL); [|reflexivity].
  destruct (nth_error PAS2Color (Z.to_nat lvl)); reflexivity.
Qed.

(** X6.  A pass blocks in [delay] for 50 ms per line whose level changed,
    in either direction, plus 3 ms when it transmits; that is at most
    153 ms, and nothing at all when no line changed and [dirty] was
    clear. *)
Theorem loop_busy_time (pins : Pins) (m : Machine) :
  busy_ms (events_of (loop pins) m)
  = 50 * (click (edge pins BTN_UP m) + click (edge pins BTN_DOWN m)
          + click (edge pins BTN_PWR m))
    + (if any_rise (remembered_high m) pins || dirty m then 3 else 0)
  /\ 0 <= busy_ms (events_of (loop pins) m) <= 153.
Proof.
  assert (H : busy_ms (events_of (loop pins) m)
              = 50 * (click (edge pins BTN_UP m) + click (edge pins BTN_DOWN m)
                      + click (edge pins BTN_PWR m))
                + (if any_rise (remembered_high m) pins || dirty m
                   then 3 else 0)).
  { rewrite loop_events, !busy_ms_app, !busy_ms_bounce.
    rewrite <- scanned_dirty_any_rise.
    destruct (scanned_dirty pins m).
    - rewrite busy_ms_app, busy_ms_led. cbn [sent_events busy_ms]. lia.
    - cbn [busy_ms]. lia. }
  split; [exact H|]. rewrite H.
  destruct (edge pins BTN_UP m), (edge pins BTN_DOWN m), (edge pins BTN_PWR m),
    (any_rise (remembered_high m) pins || dirty m); cbn [click]; lia.
Qed.

(** ** The LED *)

Ltac eval_bounds :=
  vm_compute; repeat split; try reflexivity; intros Hcmp; discriminate Hcmp.

Lemma led_writes_app (a c : list Event) :
  led_writes (a ++ c) = led_writes a ++ led_writes c.
Proof.
  induction a as [|e a IH]; [reflexivity|].
  destruct e; cbn [app led_writes]; rewrite IH; reflexivity.
Qed.

Lemma led_writes_bounce (x : bool) : led_writes (bounce_delay x) = [].
Proof. destruct x; reflexivity. Qed.

Lemma led_writes_loop (pins : Pins) (m : Machine) :
  led_writes (events_of (loop pins) m)
  = if scanned_dirty pins m
    then led_writes (led_events (scanned_level pins m))
    else [].
Proof.
  rewrite loop_events, !led_writes_app, !led_writes_bounce.
  destruct (scanned_dirty pins m); [|reflexivity].
  rewrite led_writes_app. cbn [sent_events led_writes app].
  apply app_nil_r.
Qed.

Lemma led_events_cases (lvl : Z) :
  (4 <= lvl /\ led_events lvl = [])
  \/ (lvl < 4
      /\ exists c : Color,
           In c PAS2Color
           /\ led_events lvl
              = [AnalogWrite PIN_RED (r c); AnalogWrite PIN_GREEN (g c);
                 AnalogWrite PIN_BLUE (b c)]).
Proof.
  unfold led_events.
  destruct (Z.ltb_spec lvl MAX_PAS_LEVEL) as [Hlt|Hge];
    unfold MAX_PAS_LEVEL in *; [right | left; split; [lia | reflexivity]].
  split; [exact Hlt|].
  destruct (nth_error PAS2Color (Z.to_nat lvl)) as [c|] eqn:Hc.
  - exists c. split; [apply (nth_error_In _ _ Hc) | reflexivity].
  - apply nth_error_None in Hc. cbn [length PAS2Color] in Hc. lia.
Qed.

Lemma led_pwm_other_pin (lvl : Z) (pw : Z -> Z) (pin : Z) :
  pin <> PIN_RED -> pin <> PIN_GREEN -> pin <> PIN_BLUE ->
  led_pwm lvl pw pin = pw pin.
Proof.
  intros Hr Hg Hb. unfold led_pwm.
  destruct (lvl <? MAX_PAS_LEVEL); [|reflexivity].
  destruct (nth_error PAS2Color (Z.to_nat lvl)); [|reflexivity].
  unfold upd.
  destruct (Z.eqb_spec pin PIN_BLUE); [contradiction|].
  destruct (Z.eqb_spec pin PIN_GREEN); [contradiction|].
  destruct (Z.eqb_spec pin PIN_RED); [contradiction|].
  reflexivity.
Qed.

Lemma led_pwm_stale (lvl : Z) (pw : Z -> Z) : 4 <= lvl -> led_pwm lvl pw = pw.
Proof.
  intros Hl. unfold led_pwm.
  destruct (Z.ltb_spec lvl MAX_PAS_LEVEL) as [Hlt|_];
    [unfold MAX_PAS_LEVEL in Hlt; lia | reflexivity].
Qed.

(** X7.  A pass of [loop] drives no pin but the three LED pins: the PWM
    duty of every other pin is what it was, and the pass makes either no
    [analogWrite] at all or exactly three, to the red, green and blue pin
    in this order, with the components of one colour of [PAS2Color]. *)
Theorem loop_writes_led_pins_only (pins : Pins) (m : Machine) (pin : Z) :
  pin <> PIN_RED -> pin <> PIN_GREEN -> pin <> PIN_BLUE ->
  pwm (exec (loop pins) m) pin = pwm m pin
  /\ (led_writes (events_of (loop pins) m) = []
      \/ exists c : Color,
           In c PAS2Color
           /\ led_writes (events_of (loop pins) m)
              = [(PIN_RED, r c); (PIN_GREEN, g c); (PIN_BLUE, b c)]).
Proof.
  intros Hr Hg Hb. rewrite loop_pwm, led_writes_loop.
  destruct (scanned_dirty pins m); [|split; [reflexivity | left; reflexivity]].
  split; [apply led_pwm_other_pin; assumption|].
  destruct (led_events_cases (scanned_level pins m))
    as [[_ He] | [_ (c & Hin & He)]]; rewrite He.
  - left. reflexivity.
  - right. exists c. split; [exact Hin | reflexivity].
Qed.

Lemma loop_writes_led_pins_only_witness :
  pwm (exec (loop only_up) boot) PIN_BTN_UP = pwm boot PIN_BTN_UP
  /\ (led_writes (events_of (loop only_up) boot) = []
      \/ exists c : Color,
           In c PAS2Color
           /\ led_writes (events_of (loop only_up) boot)
              = [(PIN_RED, r c); (PIN_GREEN, g c); (PIN_BLUE, b c)]).
Proof.
  apply (loop_writes_led_pins_only only_up boot PIN_BTN_UP); discriminate.
Defined.

(** X8.  After a pass that transmits and ends with a level of 0 to 3,
    the LED shows the colour of [PAS2Color] for that level, so LED and
    wire agree. *)
Theorem loop_led_shows_level (pins : Pins) (m : Machine) :
  any_rise (remembered_high m) pins || dirty m = true ->
  0 <= current_pas_level (exec (loop pins) m) < 4 ->
  nth_error PAS2Color (Z.to_nat (current_pas_level (exec (loop pins) m)))
  = Some (led_color (exec (loop pins) m))
  /\ transmitted (loop pins) m
     = packet_triple (current_pas_level (exec (loop pins) m)).
Proof.
  intros Hd Hl. rewrite <- scanned_dirty_any_rise in Hd.
  rewrite loop_transmitted, Hd. unfold led_color.
  rewrite loop_pwm, Hd. rewrite loop_level in *.
  split; [|reflexivity].
  assert (Hcases : scanned_level pins m = 0 \/ scanned_level pins m = 1
                   \/ scanned_level pins m = 2 \/ scanned_level pins m = 3)
    by lia.
  destruct Hcases as [H | [H | [H | H]]]; rewrite H; reflexivity.
Qed.

Lemma loop_led_shows_level_witness :
  nth_error PAS2Color
    (Z.to_nat (current_pas_level (exec (loop only_up) boot)))
  = Some (led_color (exec (loop only_up) boot))
  /\ transmitted (loop only_up) boot
     = packet_triple (current_pas_level (exec (loop only_up) boot)).
Proof.
  apply (loop_led_shows_level only_up boot); [reflexivity | eval_bounds].
Defined.

Lemma pas_byte_outside (lvl : Z) : lvl < 0 \/ 4 < lvl -> pas_byte lvl = 0.
Proof.
  intros Hl. rewrite pas_byte_table. unfold spec_pas_subcommand.
  repeat match goal with
         | |- context [?x =? ?y] => destruct (Z.eqb_spec x y); [lia|]
         end.
  reflexivity.
Qed.

(** X9.  After a pass that transmits and ends with a level of 4 or more,
    the LED is left as it was, with no [analogWrite], although the three
    packets go out: at level 4 the PAS packet is [0x16, 0x08, 0x0D, 0x2B],
    and at every level above 4 it is [0x16, 0x08, 0x00, 0x1E], the packet
    of level 0. *)
Theorem loop_led_stale_from_level_4 (pins : Pins) (m : Machine) :
  any_rise (remembered_high m) pins || dirty m = true ->
  4 <= current_pas_level (exec (loop pins) m) ->
  pwm (exec (loop pins) m) = pwm m
  /\ led_writes (events_of (loop pins) m) = []
  /\ transmitted (loop pins) m
     = packet_triple (current_pas_level (exec (loop pins) m))
  /\ (current_pas_level (exec (loop pins) m) = 4 ->
      nth_error (transmitted (loop pins) m) 0 = Some [0x16; 0x08; 0x0D; 0x2B])
  /\ (4 < current_pas_level (exec (loop pins) m) ->
      nth_error (transmitted (loop pins) m) 0 = Some [0x16; 0x08; 0x00; 0x1E]
      /\ nth_error (transmitted (loop pins) m) 0
         = nth_error (packet_triple 0) 0).
Proof.
  intros Hd Hl. rewrite <- scanned_dirty_any_rise in Hd.
  rewrite loop_transmitted, loop_pwm, led_writes_loop, Hd.
  rewrite loop_level in *.
  split; [apply led_pwm_stale, Hl|].
  split.
  { destruct (led_events_cases (scanned_level pins m))
      as [[_ He] | [Hlt _]]; [rewrite He; reflexivity | lia]. }
  split; [reflexivity|].
  split.
  - intros H4. rewrite H4. reflexivity.
  - intros H5. cbn [nth_error packet_triple]. unfold pas_packet.
    rewrite pas_byte_outside by (right; exact H5). split; reflexivity.
Qed.

Lemma loop_led_stale_from_level_4_witness :
  pwm (exec (loop only_up) (with_level 3 boot)) = pwm (with_level 3 boot)
  /\ nth_error (transmitted (loop only_up) (with_level 3 boot)) 0
     = Some [0x16; 0x08; 0x0D; 0x2B]
  /\ nth_error (transmitted (loop only_up) (with_level 4 boot)) 0
     = Some [0x16; 0x08; 0x00; 0x1E].
Proof.
  split; [|split].
  - apply (loop_led_stale_from_level_4 only_up (with_level 3 boot));
      [reflexivity | eval_bounds].
  - destruct (loop_led_stale_from_level_4 only_up (with_level 3 boot))
      as (_ & _ & _ & H & _); [reflexivity | eval_bounds |].
    apply H. reflexivity.
  - destruct (loop_led_stale_from_level_4 only_up (with_level 4 boot))
      as (_ & _ & _ & _ & H); [reflexivity | eval_bounds |].
    apply H. cbn. lia.
Defined.

(** ** The PAS packet as a code for the level *)

(** X10.  The PAS packet tells the levels 0 to 4 apart: two states with
    levels in that range send the same PAS packet only if the levels are
    equal.  Every level outside 0..4 sends the packet of level 0. *)
Theorem pas_packet_tells_levels_0_to_4 (m1 m2 : Machine) :
  (0 <= current_pas_level m1 <= 4 ->
   0 <= current_pas_level m2 <= 4 ->
   nth_error (transmitted sendNewState m1) 0
   = nth_error (transmitted sendNewState m2) 0 ->
   current_pas_level m1 = current_pas_level m2)
  /\ (current_pas_level m1 < 0 \/ 4 < current_pas_level m1 ->
      current_pas_level m2 = 0 ->
      nth_error (transmitted sendNewState m1) 0
      = nth_error (transmitted sendNewState m2) 0).
Proof.
  rewrite !sendNewState_transmitted. cbn [nth_error]. unfold pas_packet.
  split.
  - intros H1 H2 Heq.
    assert (Hb : pas_byte (current_pas_level m1)
                 = pas_byte (current_pas_level m2)) by congruence.
    clear Heq.
    assert (C1 : current_pas_level m1 = 0 \/ current_pas_level m1 = 1
                 \/ current_pas_level m1 = 2 \/ current_pas_level m1 = 3
                 \/ current_pas_level m1 = 4) by lia.
    assert (C2 : current_pas_level m2 = 0 \/ current_pas_level m2 = 1
                 \/ current_pas_level m2 = 2 \/ current_pas_level m2 = 3
                 \/ current_pas_level m2 = 4) by lia.
    destruct C1 as [E1 | [E1 | [E1 | [E1 | E1]]]];
      destruct C2 as [E2 | [E2 | [E2 | [E2 | E2]]]];
      rewrite E1, E2 in *; try reflexivity; discriminate Hb.
  - intros Hout H0. rewrite (pas_byte_outside _ Hout), H0. reflexivity.
Qed.

Lemma pas_packet_tells_levels_0_to_4_witness :
  current_pas_level boot = current_pas_level idle
  /\ nth_error (transmitted sendNewState (with_level UINT8_MAX boot)) 0
     = nth_error (transmitted sendNewState (with_level 0 boot)) 0.
Proof.
  split.
  - apply (pas_packet_tells_levels_0_to_4 boot idle);
      [eval_bounds | eval_bounds | reflexivity].
  - apply (pas_packet_tells_levels_0_to_4 (with_level UINT8_MAX boot)
             (with_level 0 boot)); [right; eval_bounds | reflexivity].
Defined.

(** X11.  When the UP and the DOWN line both go from low to high in one
    pass, as on the first pass after boot with no button touched, the
    increment and the decrement cancel: a level within 0..255 is left as
    it was, and the three packets are sent for it all the same. *)
Theorem loop_up_and_down_cancel (pins : Pins) (m : Machine) :
  release_edge pins BTN_UP m = true ->
  release_edge pins BTN_DOWN m = true ->
  0 <= current_pas_level m < 256 ->
  current_pas_level (exec (loop pins) m) = current_pas_level m
  /\ transmitted (loop pins) m = packet_triple (current_pas_level m).
Proof.
  intros Hup Hdown Hl.
  rewrite loop_transmitted, loop_level. unfold scanned_dirty, scanned_level.
  rewrite Hup, Hdown, u8_succ_pred, u8_small by exact Hl.
  rewrite !orb_true_r. split; reflexivity.
Qed.

Lemma loop_up_and_down_cancel_witness :
  current_pas_level (exec (loop all_high) boot) = current_pas_level boot
  /\ transmitted (loop all_high) boot = packet_triple (current_pas_level boot).
Proof.
  apply (loop_up_and_down_cancel all_high boot);
    [reflexivity | reflexivity | eval_bounds].
Defined.

(** ** Invariants of whole runs *)

Lemma led_pwm_colour (lvl : Z) (pw : Z -> Z) :
  led_pwm lvl pw = pw
  \/ In (mkColor (led_pwm lvl pw PIN_RED) (led_pwm lvl pw PIN_GREEN)
           (led_pwm lvl pw PIN_BLUE))
       PAS2Color.
Proof.
  unfold led_pwm.
  destruct (lvl <? MAX_PAS_LEVEL); [|left; reflexivity].
  destruct (nth_error PAS2Color (Z.to_nat lvl)) as [c|] eqn:Hc;
    [right | left; reflexivity].
  apply nth_error_In in Hc. destruct c as [cr cg cb]. exact Hc.
Qed.

Lemma loop_led_colour (pins : Pins) (m : Machine) :
  led_color (exec (loop pins) m) = led_color m
  \/ In (led_color (exec (loop pins) m)) PAS2Color.
Proof.
  unfold led_color. rewrite loop_pwm.
  destruct (scanned_dirty pins m); [|left; reflexivity].
  destruct (led_pwm_colour (scanned_level pins m) (pwm m)) as [H | H];
    [left; rewrite H; reflexivity | right; exact H].
Qed.

(** X12.  From boot on, the LED is either still dark or shows one of the
    four colours of [PAS2Color]: no run mixes components of two
    colours. *)
Theorem run_led_colour (inputs : list Pins) :
  led_color (exec (run inputs) boot) = mkColor 0 0 0
  \/ In (led_color (exec (run inputs) boot)) PAS2Color.
Proof.
  assert (H : forall m,
             led_color m = mkColor 0 0 0 \/ In (led_color m) PAS2Color ->
             led_color (exec (run inputs) m) = mkColor 0 0 0
             \/ In (led_color (exec (run inputs) m)) PAS2Color).
  { induction inputs as [|pins rest IH]; intros m Hm.
    - exact Hm.
    - rewrite run_cons. apply IH.
      destruct (loop_led_colour pins m) as [Hsame | Hin];
        [rewrite Hsame; exact Hm | right; exact Hin]. }
  apply H. left. reflexivity.
Qed.

(** X13.  The controller is never left behind: over a run that starts
    with [dirty] clear, either nothing was sent and the level is still
    the one the run started with, or the last three packets sent are the
    triple for the level the run ends with. *)
Theorem run_wire_in_sync (inputs : list Pins) (m : Machine) :
  dirty m = false ->
  (transmitted (run inputs) m = []
   /\ current_pas_level (exec (run inputs) m) = current_pas_level m)
  \/ exists earlier : list (list Z),
       transmitted (run inputs) m
       = earlier ++ packet_triple (current_pas_level (exec (run inputs) m)).
Proof.
  revert m. induction inputs as [|pins rest IH]; intros m Hd.
  - left. unfold transmitted. rewrite run_events_of. split; reflexivity.
  - rewrite transmitted_run_cons, run_cons.
    destruct (IH (exec (loop pins) m) (loop_dirty pins m))
      as [[Hnone Hlevel] | (earlier & Hlast)].
    + rewrite Hnone, app_nil_r, Hlevel.
      rewrite loop_transmitted, loop_level, scanned_dirty_any_rise, Hd.
      rewrite orb_false_r.
      destruct (any_rise (remembered_high m) pins) eqn:Hrise.
      * right. exists []. reflexivity.
      * left. split; [reflexivity|].
        destruct (any_rise_false pins m Hrise) as (Hup & Hdown & _).
        unfold scanned_level. rewrite Hup, Hdown. reflexivity.
    + right. exists (transmitted (loop pins) m ++ earlier).
      rewrite Hlast. apply app_assoc.
Qed.

Lemma run_wire_in_sync_witness :
  (transmitted (run [all_high; all_low; only_up]) boot = []
   /\ current_pas_level (exec (run [all_high; all_low; only_up]) boot)
      = current_pas_level boot)
  \/ exists earlier : list (list Z),
       transmitted (run [all_high; all_low; only_up]) boot
       = earlier
         ++ packet_triple
              (current_pas_level
                 (exec (run [all_high; all_low; only_up]) boot)).
Proof.
  apply (run_wire_in_sync [all_high; all_low; only_up] boot). reflexivity.
Defined.
